(** * S3 file upload service ([s3data_sync.py]): model and properties

    A shallow embedding of the three request handlers of the service
    ([health_check], [upload_file], [upload_multiple_files]) together with
    the Python data they manipulate.  The object store reached through
    [s3_client] and the payload reader [file.read()] are collaborators of
    the program: they are kept abstract (any behaviour, any exception), and
    every call the handlers issue to the store is recorded so that
    statements about side effects can be made. *)

From Stdlib Require Import ZArith Ascii String List.
From stdpp Require Import base tactics option list strings gmap pretty.

Set Warnings "-register-all".
Open Scope string_scope.
Open Scope list_scope.

(** ** Python strings *)

Module PyStr.

(** [s.rstrip(c)] for a one-character argument: drop every trailing [c]. *)
Fixpoint rstrip (c : ascii) (s : string) : string :=
  match s with
  | EmptyString => EmptyString
  | String a s' =>
      match rstrip c s' with
      | EmptyString => if Ascii.eqb a c then EmptyString else String a EmptyString
      | r => String a r
      end
  end.

(** [c * k] for a one-character string [c]. *)
Fixpoint repeat (c : ascii) (k : nat) : string :=
  match k with
  | O => EmptyString
  | S k' => String c (repeat c k')
  end.

(** [s.endswith(c)] for a one-character argument. *)
Fixpoint endswith (s : string) (c : ascii) : bool :=
  match s with
  | EmptyString => false
  | String a EmptyString => Ascii.eqb a c
  | String _ s' => endswith s' c
  end.

(** Truth value of a [str]: only the empty string is falsy. *)
Definition truthy (s : string) : bool :=
  match s with
  | EmptyString => false
  | String _ _ => true
  end.

(** Truth value of an [Optional[str]]: [None] and [""] are falsy. *)
Definition truthy_opt (o : option string) : bool :=
  match o with
  | None => false
  | Some s => truthy s
  end.

(** What an f-string substitutes for an [Optional[str]]:
    [f"{None}"] is the text [None]. *)
Definition format (o : option string) : string :=
  match o with
  | None => "None"
  | Some s => s
  end.

End PyStr.

Definition slash : ascii := "/"%char.

(** ** JSON bodies

    The handlers answer with Python dict literals; a dict keeps the order in
    which its keys were written, so it is kept as an association list. *)

Inductive json : Type :=
| JNull
| JStr (s : string)
| JInt (n : Z)
| JList (items : list json)
| JDict (fields : list (string * json)).

Module Json.

(** An [Optional[str]] placed in a body: [None] becomes [null]. *)
Definition of_opt (o : option string) : json :=
  match o with
  | None => JNull
  | Some s => JStr s
  end.

Fixpoint assoc (k : string) (fields : list (string * json)) : option json :=
  match fields with
  | [] => None
  | (k', v) :: rest => if String.eqb k k' then Some v else assoc k rest
  end.

(** [body[k]], when [body] is a dict that has the key. *)
Definition get (k : string) (body : json) : option json :=
  match body with
  | JDict fields => assoc k fields
  | _ => None
  end.

End Json.

(** ** Exceptions *)

(** Outcome of a call that either returns or raises. *)
Inductive Result (E A : Type) : Type :=
| Returns (a : A)
| Raises (e : E).
Arguments Returns {E A} a.
Arguments Raises {E A} e.

(** [d.get(k, dflt)] on a dict. *)
Definition dict_get {V : Type} (d : gmap string V) (k : string) (dflt : V) : V :=
  default dflt (d !! k).

(** Exceptions the collaborators may raise.  [ClientError] is botocore's:
    it carries the parsed error [response] (a dict whose ["Error"] entry is
    a dict with ["Code"] and ["Message"]) and the [operation_name];
    [retry_info] is the suffix botocore derives from the response metadata
    (empty unless the retry limit was reached).  [OtherException] stands
    for any other [Exception], identified by its text. *)
Inductive Exception : Type :=
| ClientError (response : gmap string (gmap string string))
              (operation_name retry_info : string)
| OtherException (text : string).

(** [str(e)].  botocore formats a [ClientError] with its message template
    ["An error occurred ({error_code}) when calling the {operation_name}
    operation{retry_info}: {error_message}"], with ["Unknown"] for a missing
    code or message. *)
Definition str (e : Exception) : string :=
  match e with
  | ClientError response operation_name retry_info =>
      let error := dict_get response "Error" ∅ in
      "An error occurred (" +:+ dict_get error "Code" "Unknown"
        +:+ ") when calling the " +:+ operation_name +:+ " operation"
        +:+ retry_info +:+ ": " +:+ dict_get error "Message" "Unknown"
  | OtherException text => text
  end.

(** What a handler itself raises: an exception of a collaborator that it
    does not catch, or FastAPI's [HTTPException]. *)
Inductive Raised : Type :=
| Uncaught (e : Exception)
| HTTPException (status_code : Z) (detail : string).

(** What a handler returns: a plain dict, or an explicit [JSONResponse]. *)
Inductive Response : Type :=
| Dict (content : json)
| JSONResponse (status_code : Z) (content : json).

(** Status line FastAPI sends: 200 for a returned dict, the given code for
    a [JSONResponse] or an [HTTPException], 500 for an unhandled exception. *)
Definition http_status (r : Result Raised Response) : Z :=
  match r with
  | Returns (Dict _) => 200
  | Returns (JSONResponse status_code _) => status_code
  | Raises (HTTPException status_code _) => status_code
  | Raises (Uncaught _) => 500
  end.

(** ** Requests and the object store *)

(** An uploaded part as the handlers use it: its two attributes and the
    outcome of [await file.read()]. *)
Record UploadFile : Type := {
  filename : option string;
  content_type : option string;
  read : Result Exception (list Byte.byte)
}.

(** Keyword arguments of [s3_client.put_object].  [Key] and [ContentType]
    receive Python values that may be [None]; [ACL] is [None] when the
    keyword is not passed at all. *)
Record PutObject : Type := {
  Bucket : string;
  Key : option string;
  Body : list Byte.byte;
  ContentType : option string;
  ACL : option string
}.

(** Calls issued to the store. *)
Inductive Call : Type :=
| HeadBucketCall (bucket : string)
| PutObjectCall (args : PutObject).

(** The store client: each call may change the state [W] of the outside
    world, and returns or raises. *)
Record S3Client (W : Type) : Type := {
  head_bucket : string -> W -> Result Exception unit * W;
  put_object : PutObject -> W -> Result Exception unit * W
}.
Arguments head_bucket {W} _ _ _.
Arguments put_object {W} _ _ _.

(** State a handler runs in: its parameter [folder] (a local variable that
    the handlers reassign), the state of the outside world, and the calls
    issued to the store so far. *)
Record Frame (W : Type) : Type := {
  folder : option string;
  world : W;
  calls : list Call
}.
Arguments folder {W} _.
Arguments world {W} _.
Arguments calls {W} _.
Arguments Build_Frame {W} _ _ _.

(** Entering a handler with the request's [folder] parameter. *)
Definition enter {W : Type} (folder : option string) (w : W) : Frame W :=
  {| folder := folder; world := w; calls := [] |}.

(** ** Computations of a handler

    A computation runs in a frame and either returns or raises; what it did
    to the frame before raising stays done, as in Python. *)

Definition M (W E A : Type) : Type := Frame W -> Result E A * Frame W.

Module Run.
Section Ops.
Context {W : Type}.

Definition ret {E A} (a : A) : M W E A := fun fr => (Returns a, fr).

Definition raise {E A} (e : E) : M W E A := fun fr => (Raises e, fr).

Definition bind {E A B} (m : M W E A) (k : A -> M W E B) : M W E B :=
  fun fr =>
    match m fr with
    | (Returns a, fr') => k a fr'
    | (Raises e, fr') => (Raises e, fr')
    end.

(** [try: m  except ... as e: handler e] where the clauses together catch
    every exception [m] can raise. *)
Definition try_except {E E' A} (m : M W E A) (handler : E -> M W E' A)
  : M W E' A :=
  fun fr =>
    match m fr with
    | (Returns a, fr') => (Returns a, fr')
    | (Raises e, fr') => handler e fr'
    end.

(** [try: m  except ClientError as e: handler e]: any other exception
    leaves the handler uncaught. *)
Definition try_except_ClientError {A}
    (m : M W Exception A) (handler : Exception -> M W Raised A)
  : M W Raised A :=
  try_except m (fun e =>
    match e with
    | ClientError _ _ _ => handler e
    | OtherException _ => raise (Uncaught e)
    end).

Definition get_folder {E} : M W E (option string) :=
  fun fr => (Returns (folder fr), fr).

Definition set_folder {E} (f : option string) : M W E unit :=
  fun fr => (Returns tt, {| folder := f; world := world fr; calls := calls fr |}).

(** [await file.read()] *)
Definition file_read (file : UploadFile) : M W Exception (list Byte.byte) :=
  fun fr => (read file, fr).

(** A call to the store: recorded, then answered by the client. *)
Definition call (c : Call) (op : W -> Result Exception unit * W)
  : M W Exception unit :=
  fun fr =>
    let '(r, w') := op (world fr) in
    (r, {| folder := folder fr; world := w'; calls := calls fr ++ [c] |}).

End Ops.
End Run.

Declare Scope run_scope.
Delimit Scope run_scope with run.
Notation "x <- m ;; k" := (Run.bind m (fun x => k))
  (at level 100, m at next level, right associativity) : run_scope.
Notation "m ;;; k" := (Run.bind m (fun _ => k))
  (at level 100, right associativity) : run_scope.

(** ** The handlers *)

Section Handlers.
Context {W : Type}.
(** Configuration read from the environment when the module is loaded. *)
Variables AWS_REGION S3_BUCKET_NAME : string.
Variable s3_client : S3Client W.

Import Run.
Local Open Scope run_scope.

Definition s3_head_bucket (bucket : string) : M W Exception unit :=
  call (HeadBucketCall bucket) (head_bucket s3_client bucket).

Definition s3_put_object (args : PutObject) : M W Exception unit :=
  call (PutObjectCall args) (put_object s3_client args).

(** [GET /health] *)
Definition health_check : M W Raised Response :=
  try_except_ClientError
    (s3_head_bucket S3_BUCKET_NAME ;;;
     ret (Dict (JDict [("status", JStr "healthy");
                       ("bucket", JStr S3_BUCKET_NAME);
                       ("connection", JStr "success")])))
    (fun e =>
     ret (Dict (JDict [("status", JStr "unhealthy");
                       ("bucket", JStr S3_BUCKET_NAME);
                       ("error", JStr (str e))]))).

(** The block both upload handlers use to build the key:
<<
    if folder:
        folder = folder.rstrip('/') + '/'
        s3_key = f"{folder}{file.filename}"
    else:
        s3_key = file.filename
>>
    It reassigns [folder] and yields [s3_key]. *)
Definition construct_s3_key {E} (file : UploadFile) : M W E (option string) :=
  folder <- get_folder ;;
  match folder with
  | Some f =>
      if PyStr.truthy f then
        let folder := PyStr.rstrip slash f +:+ "/" in
        set_folder (Some folder) ;;;
        ret (Some (folder +:+ PyStr.format (filename file)))
      else ret (filename file)
  | None => ret (filename file)
  end.

Definition object_url (s3_key : option string) : string :=
  "https://" +:+ S3_BUCKET_NAME +:+ ".s3." +:+ AWS_REGION +:+ ".amazonaws.com/"
    +:+ PyStr.format s3_key.

(** [POST /upload] *)
Definition upload_file (file : UploadFile) : M W Raised Response :=
  try_except
    (file_contents <- file_read file ;;
     s3_key <- construct_s3_key file ;;
     s3_put_object {| Bucket := S3_BUCKET_NAME;
                      Key := s3_key;
                      Body := file_contents;
                      ContentType := content_type file;
                      ACL := Some "public-read" |} ;;;
     let file_url := object_url s3_key in
     ret (JSONResponse 200
            (JDict [("message", JStr "File uploaded successfully");
                    ("filename", Json.of_opt (filename file));
                    ("s3_key", Json.of_opt s3_key);
                    ("bucket", JStr S3_BUCKET_NAME);
                    ("url", JStr file_url);
                    ("content_type", Json.of_opt (content_type file));
                    ("size", JInt (Z.of_nat (length file_contents)))])))
    (fun e =>
     match e with
     | ClientError response _ _ =>
         let error_code :=
           dict_get (dict_get response "Error" ∅) "Code" "Unknown" in
         let error_message :=
           dict_get (dict_get response "Error" ∅) "Message" (str e) in
         raise (HTTPException 500
                  ("S3 upload failed: " +:+ error_code +:+ " - " +:+ error_message))
     | OtherException _ =>
         raise (HTTPException 500 ("Upload failed: " +:+ str e))
     end).

(** One turn of the loop of [upload_multiple_files], on the lists
    [results] and [errors] built so far. *)
Definition upload_multiple_files_body
    (acc : list json * list json) (file : UploadFile)
  : M W Raised (list json * list json) :=
  let '(results, errors) := acc in
  try_except
    (file_contents <- file_read file ;;
     s3_key <- construct_s3_key file ;;
     s3_put_object {| Bucket := S3_BUCKET_NAME;
                      Key := s3_key;
                      Body := file_contents;
                      ContentType := content_type file;
                      ACL := None |} ;;;
     let file_url := object_url s3_key in
     ret (results ++ [JDict [("filename", Json.of_opt (filename file));
                             ("status", JStr "success");
                             ("s3_key", Json.of_opt s3_key);
                             ("url", JStr file_url)]],
          errors))
    (fun e =>
     ret (results,
          errors ++ [JDict [("filename", Json.of_opt (filename file));
                            ("status", JStr "failed");
                            ("error", JStr (str e))]])).

(** [for file in files: ...] *)
Fixpoint upload_multiple_files_loop
    (files : list UploadFile) (acc : list json * list json)
  : M W Raised (list json * list json) :=
  match files with
  | [] => ret acc
  | file :: rest =>
      acc' <- upload_multiple_files_body acc file ;;
      upload_multiple_files_loop rest acc'
  end.

(** [POST /upload-multiple] *)
Definition upload_multiple_files (files : list UploadFile)
  : M W Raised Response :=
  acc <- upload_multiple_files_loop files ([], []) ;;
  let '(results, errors) := acc in
  ret (JSONResponse 200
         (JDict [("message",
                  JStr ("Processed " +:+ pretty (length files) +:+ " file(s)"));
                 ("successful", JInt (Z.of_nat (length results)));
                 ("failed", JInt (Z.of_nat (length errors)));
                 ("results", JList results);
                 ("errors", JList errors)])).

End Handlers.

(** ** The key the specification describes *)

(** [buildKey] in the words of the specification: the file name unchanged
    when the folder is absent or empty; otherwise the folder without its
    trailing separators, then one separator, then the file name. *)
Definition buildKey (folder : option string) (fileName : string) : string :=
  match folder with
  | None => fileName
  | Some EmptyString => fileName
  | Some f => PyStr.rstrip slash f +:+ "/" +:+ fileName
  end.

(** ** What a run of each handler does

    The definitions below spell out, as plain functions, what the handlers
    compute; the lemmas of the second half of the file prove that the
    handlers do compute it. *)

Section Traces.
Context {W : Type}.
Variables AWS_REGION S3_BUCKET_NAME : string.
Variable s3_client : S3Client W.

(** Value of [folder] once the key block has run. *)
Definition folder_after (folder : option string) : option string :=
  match folder with
  | Some f => if PyStr.truthy f then Some (PyStr.rstrip slash f +:+ "/") else folder
  | None => None
  end.

(** Value of [s3_key] once the key block has run. *)
Definition key_after (folder : option string) (name : option string)
  : option string :=
  match folder with
  | Some f =>
      if PyStr.truthy f
      then Some ((PyStr.rstrip slash f +:+ "/") +:+ PyStr.format name)
      else name
  | None => name
  end.

(** Detail string of the fault [upload_file] raises for an exception. *)
Definition upload_failure_detail (e : Exception) : string :=
  match e with
  | ClientError response _ _ =>
      "S3 upload failed: "
        +:+ dict_get (dict_get response "Error" ∅) "Code" "Unknown"
        +:+ " - "
        +:+ dict_get (dict_get response "Error" ∅) "Message" (str e)
  | OtherException _ => "Upload failed: " +:+ str e
  end.

Definition upload_file_args (file : UploadFile) (folder : option string)
    (file_contents : list Byte.byte) : PutObject :=
  {| Bucket := S3_BUCKET_NAME;
     Key := key_after folder (filename file);
     Body := file_contents;
     ContentType := content_type file;
     ACL := Some "public-read" |}.

Definition upload_file_content (file : UploadFile) (folder : option string)
    (file_contents : list Byte.byte) : json :=
  let s3_key := key_after folder (filename file) in
  JDict [("message", JStr "File uploaded successfully");
         ("filename", Json.of_opt (filename file));
         ("s3_key", Json.of_opt s3_key);
         ("bucket", JStr S3_BUCKET_NAME);
         ("url", JStr (object_url AWS_REGION S3_BUCKET_NAME s3_key));
         ("content_type", Json.of_opt (content_type file));
         ("size", JInt (Z.of_nat (length file_contents)))].

Definition batch_args (file : UploadFile) (folder : option string)
    (file_contents : list Byte.byte) : PutObject :=
  {| Bucket := S3_BUCKET_NAME;
     Key := key_after folder (filename file);
     Body := file_contents;
     ContentType := content_type file;
     ACL := None |}.

Definition success_entry (file : UploadFile) (folder : option string) : json :=
  let s3_key := key_after folder (filename file) in
  JDict [("filename", Json.of_opt (filename file));
         ("status", JStr "success");
         ("s3_key", Json.of_opt s3_key);
         ("url", JStr (object_url AWS_REGION S3_BUCKET_NAME s3_key))].

Definition error_entry (file : UploadFile) (e : Exception) : json :=
  JDict [("filename", Json.of_opt (filename file));
         ("status", JStr "failed");
         ("error", JStr (str e))].

(** What the [try] block of one turn does with a file: it returns the
    entry for [results], or raises. *)
Definition attempt (file : UploadFile) (fr : Frame W)
  : Result Exception json * Frame W :=
  match read file with
  | Raises e => (Raises e, fr)
  | Returns file_contents =>
      let args := batch_args file (folder fr) file_contents in
      let fr' w' := {| folder := folder_after (folder fr); world := w';
                       calls := calls fr ++ [PutObjectCall args] |} in
      match put_object s3_client args (world fr) with
      | (Returns _, w') => (Returns (success_entry file (folder fr)), fr' w')
      | (Raises e, w') => (Raises e, fr' w')
      end
  end.

(** The attempts on the files of a batch, one after the other: each file
    with the outcome of its attempt, and the frame left at the end. *)
Fixpoint attempts (files : list UploadFile) (fr : Frame W)
  : list (UploadFile * Result Exception json) * Frame W :=
  match files with
  | [] => ([], fr)
  | file :: rest =>
      let '(r, fr') := attempt file fr in
      let '(t, fr'') := attempts rest fr' in
      ((file, r) :: t, fr'')
  end.

Definition succeeded (a : UploadFile * Result Exception json) : bool :=
  match a.2 with Returns _ => true | Raises _ => false end.

Definition failed (a : UploadFile * Result Exception json) : bool :=
  negb (succeeded a).

(** Entries the attempts leave in [results], and in [errors]. *)
Definition successes (t : list (UploadFile * Result Exception json))
  : list json :=
  omap (fun a => match a.2 with Returns entry => Some entry | Raises _ => None end) t.

Definition failures (t : list (UploadFile * Result Exception json))
  : list json :=
  omap (fun a => match a.2 with Returns _ => None | Raises e => Some (error_entry a.1 e) end) t.

Definition batch_content (n : nat) (results errors : list json) : json :=
  JDict [("message", JStr ("Processed " +:+ pretty n +:+ " file(s)"));
         ("successful", JInt (Z.of_nat (length results)));
         ("failed", JInt (Z.of_nat (length errors)));
         ("results", JList results);
         ("errors", JList errors)].

(** The [put_object] call the batch issues for a file, if it can be read. *)
Definition planned_put (folder : option string) (file : UploadFile)
  : option PutObject :=
  match read file with
  | Returns file_contents => Some (batch_args file folder file_contents)
  | Raises _ => None
  end.

End Traces.

(** The [put_object] calls among the calls issued to the store. *)
Definition put_calls (cs : list Call) : list PutObject :=
  omap (fun c => match c with
                 | PutObjectCall args => Some args
                 | HeadBucketCall _ => None
                 end) cs.

(** Whether [await file.read()] returns. *)
Definition readable (file : UploadFile) : bool :=
  match read file with
  | Returns _ => true
  | Raises _ => false
  end.

(** The same call with the [ACL] keyword left out. *)
Definition without_ACL (args : PutObject) : PutObject :=
  {| Bucket := Bucket args; Key := Key args; Body := Body args;
     ContentType := ContentType args; ACL := None |}.

(** ** Stores and requests used in the examples *)

Module Doubles.

(** A store that accepts every call. *)
Definition accept_all : S3Client unit :=
  {| head_bucket := fun _ w => (Returns tt, w);
     put_object := fun _ w => (Returns tt, w) |}.

Definition access_denied : Exception :=
  ClientError {[ "Error" := {[ "Code" := "AccessDenied";
                                "Message" := "Access Denied" ]} ]}
              "PutObject" "".

Definition not_found : Exception :=
  ClientError {[ "Error" := {[ "Code" := "404"; "Message" := "Not Found" ]} ]}
              "HeadBucket" "".

(** A store that refuses every call. *)
Definition refuse_all : S3Client unit :=
  {| head_bucket := fun _ w => (Raises not_found, w);
     put_object := fun _ w => (Raises access_denied, w) |}.

(** A store that refuses writes under one key and accepts the others. *)
Definition refuse_key (k : string) : S3Client unit :=
  {| head_bucket := fun _ w => (Returns tt, w);
     put_object := fun args w =>
       if decide (Key args = Some k)
       then (Raises access_denied, w)
       else (Returns tt, w) |}.

(** A store that counts the objects written, behind a client that checks
    its parameters first, as boto3 does: a call without a key raises an
    error of the client before anything is sent. *)
Definition validating : S3Client nat :=
  {| head_bucket := fun _ n => (Returns tt, n);
     put_object := fun args n =>
       match Key args with
       | None => (Raises (OtherException "Parameter validation failed"), n)
       | Some _ => (Returns tt, S n)
       end |}.

(** A store whose connection breaks after the first write. *)
Definition breaks_after_one : S3Client nat :=
  {| head_bucket := fun _ n => (Returns tt, n);
     put_object := fun _ n =>
       match n with
       | O => (Returns tt, 1)
       | S _ => (Raises (OtherException "Connection reset"), S n)
       end |}.

(** A store that cannot be reached. *)
Definition unreachable : S3Client unit :=
  {| head_bucket := fun _ w =>
       (Raises (OtherException "Could not connect to the endpoint URL"), w);
     put_object := fun _ w =>
       (Raises (OtherException "Could not connect to the endpoint URL"), w) |}.

Definition ten_bytes : list Byte.byte := List.repeat Byte.x61 10.

Definition text_file (name : string) : UploadFile :=
  {| filename := Some name; content_type := Some "text/plain";
     read := Returns ten_bytes |}.

Definition nameless : UploadFile :=
  {| filename := None; content_type := Some "text/plain";
     read := Returns ten_bytes |}.

End Doubles.

(** ** Start of the service and the information endpoint *)

Module Startup.

(** The module-level settings, as [os.getenv] gives them: a credential is
    [None] when its variable is not set. *)
Record Settings : Type := {
  AWS_ACCESS_KEY_ID : option string;
  AWS_SECRET_ACCESS_KEY : option string;
  AWS_REGION : string;
  S3_BUCKET_NAME : string
}.

Inductive StartupError : Type :=
| ValueError (message : string).

(** [os.getenv(name)] and [os.getenv(name, default)] on the environment
    left by [load_dotenv()]. *)
Definition getenv (environ : gmap string string) (name : string)
  : option string :=
  environ !! name.

Definition getenv_default (environ : gmap string string) (name dflt : string)
  : string :=
  default dflt (environ !! name).

(** The module body from the reading of the settings to the check of the
    credentials: it yields the settings, or raises [ValueError]. *)
Definition load (environ : gmap string string)
  : Result StartupError Settings :=
  let AWS_ACCESS_KEY_ID := getenv environ "AWS_ACCESS_KEY_ID" in
  let AWS_SECRET_ACCESS_KEY := getenv environ "AWS_SECRET_ACCESS_KEY" in
  let AWS_REGION := getenv_default environ "AWS_REGION" "eu-north-1" in
  let S3_BUCKET_NAME :=
    getenv_default environ "S3_BUCKET_NAME" "study2material" in
  if negb (PyStr.truthy_opt AWS_ACCESS_KEY_ID)
     || negb (PyStr.truthy_opt AWS_SECRET_ACCESS_KEY)
  then Raises (ValueError
         "AWS_ACCESS_KEY_ID and AWS_SECRET_ACCESS_KEY must be set in .env file")
  else Returns {| AWS_ACCESS_KEY_ID := AWS_ACCESS_KEY_ID;
                  AWS_SECRET_ACCESS_KEY := AWS_SECRET_ACCESS_KEY;
                  AWS_REGION := AWS_REGION;
                  S3_BUCKET_NAME := S3_BUCKET_NAME |}.


End Startup.

Section Info.
Context {W : Type}.
Variable S3_BUCKET_NAME : string.

(** [GET /] *)
Definition root : M W Raised Response :=
  Run.ret (Dict (JDict [("message", JStr "S3 File Upload API");
                        ("bucket", JStr S3_BUCKET_NAME);
                        ("endpoints", JDict [("upload", JStr "/upload");
                                             ("health", JStr "/health")])])).

End Info.

(** The [head_bucket] calls among the calls issued to the store. *)
Definition head_calls (cs : list Call) : list string :=
  omap (fun c => match c with
                 | HeadBucketCall bucket => Some bucket
                 | PutObjectCall _ => None
                 end) cs.

(** * Properties *)

(** ** Facts about strings *)

Lemma append_assoc (s1 s2 s3 : string) :
  (s1 +:+ s2) +:+ s3 = s1 +:+ (s2 +:+ s3).
Proof.
  induction s1 as [|a s1 IH]; [reflexivity|].
  change (String a ((s1 +:+ s2) +:+ s3) = String a (s1 +:+ (s2 +:+ s3))).
  now rewrite IH.
Qed.

Lemma append_nil_r (s : string) : s +:+ "" = s.
Proof.
  induction s as [|a s IH]; [reflexivity|].
  change (String a (s +:+ "") = String a s). now rewrite IH.
Qed.

Module PyStrFacts.
Import PyStr.

Lemma rstrip_nil_inv c s : rstrip c s = "" -> exists k, s = repeat c k.
Proof.
  induction s as [|a s IH]; simpl.
  - intros _. now exists 0.
  - destruct (rstrip c s) eqn:Hr; [|discriminate].
    destruct (Ascii.eqb a c) eqn:Hac; [|discriminate].
    intros _. apply Ascii.eqb_eq in Hac as ->.
    destruct (IH eq_refl) as [k ->]. now exists (S k).
Qed.

(** Only trailing copies of [c] are removed. *)
Lemma rstrip_decompose c s : exists k, s = rstrip c s +:+ repeat c k.
Proof.
  induction s as [|a s IH]; simpl.
  - now exists 0.
  - destruct (rstrip c s) eqn:Hr.
    + destruct (rstrip_nil_inv c s Hr) as [k ->].
      destruct (Ascii.eqb a c) eqn:Hac.
      * apply Ascii.eqb_eq in Hac as ->. now exists (S k).
      * now exists k.
    + destruct IH as [k IH]. exists k. rewrite IH at 1. reflexivity.
Qed.

(** All of them are removed. *)
Lemma rstrip_endswith c s : endswith (rstrip c s) c = false.
Proof.
  induction s as [|a s IH]; simpl; [reflexivity|].
  destruct (rstrip c s) eqn:Hr.
  - destruct (Ascii.eqb a c) eqn:Hac; simpl; [reflexivity | exact Hac].
  - simpl in *. exact IH.
Qed.

Lemma rstrip_fixed c s : endswith s c = false -> rstrip c s = s.
Proof.
  induction s as [|a s IH]; simpl; [reflexivity|].
  destruct s as [|b s'].
  - simpl. now intros ->.
  - intros H. rewrite (IH H). reflexivity.
Qed.

Lemma rstrip_app_char c s : rstrip c (s +:+ String c "") = rstrip c s.
Proof.
  induction s as [|a s IH]; simpl.
  - now rewrite Ascii.eqb_refl.
  - now rewrite IH.
Qed.

Lemma rstrip_idemp c s : rstrip c (rstrip c s) = rstrip c s.
Proof. apply rstrip_fixed, rstrip_endswith. Qed.

Lemma rstrip_app_repeat c k : forall s,
  rstrip c (s +:+ repeat c k) = rstrip c s.
Proof.
  induction k as [|k IH]; intros s; cbn [repeat].
  - now rewrite append_nil_r.
  - change (String c (repeat c k)) with (String c "" +:+ repeat c k).
    now rewrite <- append_assoc, IH, rstrip_app_char.
Qed.

(** The result of [rstrip] is the only prefix that does not end in [c] and
    is followed by copies of [c] alone. *)
Lemma rstrip_unique c p k :
  endswith p c = false -> rstrip c (p +:+ repeat c k) = p.
Proof.
  intros Hp. rewrite rstrip_app_repeat. now apply rstrip_fixed.
Qed.

(** Normalising a folder a second time changes nothing. *)
Lemma rstrip_normalised c s :
  rstrip c (rstrip c s +:+ String c "") = rstrip c s.
Proof. now rewrite rstrip_app_char, rstrip_idemp. Qed.

Lemma truthy_app_char s c : truthy (s +:+ String c "") = true.
Proof. now destruct s. Qed.

End PyStrFacts.


(** ** Runs of the handlers *)

Section Runs.
Context {W : Type}.
Variables AWS_REGION S3_BUCKET_NAME : string.
Variable s3_client : S3Client W.

Import Run.

Local Abbreviation upload_file_args := (upload_file_args S3_BUCKET_NAME).
Local Abbreviation upload_file_content :=
  (upload_file_content AWS_REGION S3_BUCKET_NAME).
Local Abbreviation batch_args := (batch_args S3_BUCKET_NAME).
Local Abbreviation success_entry := (success_entry AWS_REGION S3_BUCKET_NAME).
Local Abbreviation planned_put := (planned_put S3_BUCKET_NAME).
Local Abbreviation attempt := (attempt AWS_REGION S3_BUCKET_NAME s3_client).
Local Abbreviation attempts := (attempts AWS_REGION S3_BUCKET_NAME s3_client).

Lemma construct_s3_key_run E file (fr : Frame W) :
  construct_s3_key (E:=E) file fr =
    (Returns (key_after (folder fr) (filename file)),
     {| folder := folder_after (folder fr);
        world := world fr; calls := calls fr |}).
Proof.
  unfold construct_s3_key, bind, get_folder, set_folder, ret, key_after,
    folder_after.
  destruct fr as [[f|] w cs]; simpl; [|reflexivity].
  destruct (PyStr.truthy f); reflexivity.
Qed.

Lemma folder_after_idemp folder :
  folder_after (folder_after folder) = folder_after folder.
Proof.
  destruct folder as [f|]; simpl; [|reflexivity].
  destruct (PyStr.truthy f) eqn:Hf; simpl; [|now rewrite Hf].
  now rewrite PyStrFacts.truthy_app_char, PyStrFacts.rstrip_normalised.
Qed.

(** The reassignment of [folder] does not change later keys. *)
Lemma key_after_folder_after folder name :
  key_after (folder_after folder) name = key_after folder name.
Proof.
  destruct folder as [f|]; simpl; [|reflexivity].
  destruct (PyStr.truthy f) eqn:Hf; simpl; [|now rewrite Hf].
  now rewrite PyStrFacts.truthy_app_char, PyStrFacts.rstrip_normalised.
Qed.

Lemma key_after_named folder n :
  key_after folder (Some n) = Some (buildKey folder n).
Proof.
  destruct folder as [[|a f]|]; simpl; try reflexivity.
  now rewrite append_assoc.
Qed.

(** A run of [upload_file], step by step. *)
Lemma upload_file_run file (fr : Frame W) :
  upload_file AWS_REGION S3_BUCKET_NAME s3_client file fr =
    match read file with
    | Raises e => (Raises (HTTPException 500 (upload_failure_detail e)), fr)
    | Returns file_contents =>
        let args := upload_file_args file (folder fr) file_contents in
        let fr' w' := {| folder := folder_after (folder fr); world := w';
                         calls := calls fr ++ [PutObjectCall args] |} in
        match put_object s3_client args (world fr) with
        | (Returns _, w') =>
            (Returns (JSONResponse 200
                        (upload_file_content file (folder fr) file_contents)),
             fr' w')
        | (Raises e, w') =>
            (Raises (HTTPException 500 (upload_failure_detail e)), fr' w')
        end
    end.
Proof.
  unfold upload_file, try_except, bind, file_read.
  destruct (read file) as [file_contents|e]; [|now destruct e].
  rewrite construct_s3_key_run.
  unfold s3_put_object, call, upload_file_args; cbn [world folder calls].
  destruct (put_object s3_client _ (world fr)) as [[[]|e] w'];
    [reflexivity | now destruct e].
Qed.

Lemma upload_multiple_files_body_run acc file (fr : Frame W) :
  upload_multiple_files_body AWS_REGION S3_BUCKET_NAME s3_client acc file fr =
    match attempt file fr with
    | (Returns entry, fr') => (Returns (acc.1 ++ [entry], acc.2), fr')
    | (Raises e, fr') => (Returns (acc.1, acc.2 ++ [error_entry file e]), fr')
    end.
Proof.
  destruct acc as [results errors].
  unfold upload_multiple_files_body, attempt, try_except, bind, file_read.
  destruct (read file) as [file_contents|e]; [|reflexivity].
  rewrite construct_s3_key_run.
  unfold s3_put_object, call, batch_args; cbn [world folder calls].
  destruct (put_object s3_client _ (world fr)) as [[[]|e] w']; reflexivity.
Qed.

Lemma upload_multiple_files_loop_run files acc (fr : Frame W) :
  upload_multiple_files_loop AWS_REGION S3_BUCKET_NAME s3_client files acc fr =
    (Returns (acc.1 ++ successes (attempts files fr).1,
              acc.2 ++ failures (attempts files fr).1),
     (attempts files fr).2).
Proof.
  revert acc fr. induction files as [|file rest IH]; intros [results errors] fr.
  - cbn. now rewrite !app_nil_r.
  - cbn [upload_multiple_files_loop attempts]. unfold bind.
    rewrite upload_multiple_files_body_run.
    destruct (attempt file fr) as [[entry|e] fr']; rewrite IH;
      destruct (attempts rest fr') as [t fr'']; cbn;
      now rewrite <- ?app_assoc.
Qed.

(** A run of [upload_multiple_files]. *)
Lemma upload_multiple_files_run files (fr : Frame W) :
  upload_multiple_files AWS_REGION S3_BUCKET_NAME s3_client files fr =
    (Returns (JSONResponse 200
                (batch_content (length files)
                   (successes (attempts files fr).1)
                   (failures (attempts files fr).1))),
     (attempts files fr).2).
Proof.
  unfold upload_multiple_files, bind.
  now rewrite upload_multiple_files_loop_run.
Qed.

Lemma attempts_files files (fr : Frame W) :
  map fst (attempts files fr).1 = files.
Proof.
  revert fr. induction files as [|file rest IH]; intros fr; [reflexivity|].
  cbn [attempts]. destruct (attempt file fr) as [r fr'].
  specialize (IH fr'). destruct (attempts rest fr') as [t fr''].
  cbn in *. now rewrite IH.
Qed.

Lemma attempts_count files (fr : Frame W) :
  length (successes (attempts files fr).1)
    + length (failures (attempts files fr).1) = length files.
Proof.
  rewrite <- (attempts_files files fr) at 3. rewrite length_map.
  unfold successes, failures.
  induction (attempts files fr).1 as [|[file [entry|e]] t IH]; cbn in *; lia.
Qed.

(** The calls of a batch do not depend on the answers of the store. *)
Lemma attempts_calls files : forall (fr : Frame W) fo,
  (forall n, key_after (folder fr) n = key_after fo n) ->
  calls (attempts files fr).2 =
    calls fr ++ List.map PutObjectCall (omap (planned_put fo) files).
Proof.
  induction files as [|file rest IH]; intros fr fo Hfo.
  - cbn. now rewrite app_nil_r.
  - cbn [attempts omap list_omap]. unfold attempt, planned_put, batch_args.
    destruct (read file) as [file_contents|e].
    + destruct (put_object s3_client _ (world fr)) as [[[]|e] w'];
        match goal with
        | |- context [attempts rest ?fr'] =>
            specialize (IH fr' fo); destruct (attempts rest fr') as [t fr'']
        end;
        cbn in *; (rewrite IH;
          [ rewrite <- app_assoc, Hfo; reflexivity
          | intros n; now rewrite key_after_folder_after ]).
    + specialize (IH fr fo Hfo). destruct (attempts rest fr) as [t fr''].
      cbn in *. exact IH.
Qed.

(** Entries of the report, file by file. *)
Lemma attempts_successes files : forall (fr : Frame W) fo,
  (forall n, key_after (folder fr) n = key_after fo n) ->
  successes (attempts files fr).1 =
    List.map (fun a => success_entry a.1 fo)
      (List.filter succeeded (attempts files fr).1).
Proof.
  induction files as [|file rest IH]; intros fr fo Hfo; [reflexivity|].
  cbn [attempts]. unfold attempt.
  destruct (read file) as [file_contents|e].
  - destruct (put_object s3_client _ (world fr)) as [[[]|e] w'];
      match goal with
      | |- context [attempts rest ?fr'] =>
          specialize (IH fr' fo); destruct (attempts rest fr') as [t fr'']
      end;
      cbn in *; rewrite IH;
      try (intros n; now rewrite key_after_folder_after);
      unfold success_entry; now rewrite ?Hfo.
  - specialize (IH fr fo Hfo). destruct (attempts rest fr) as [t fr''].
    cbn in *. exact IH.
Qed.

Lemma failures_filenames (t : list (UploadFile * Result Exception json)) :
  List.map (Json.get "filename") (failures t) =
    List.map (fun a => Some (Json.of_opt (filename a.1))) (List.filter failed t).
Proof.
  unfold failures.
  induction t as [|[file [entry|e]] t IH]; cbn in *; congruence.
Qed.

Lemma filter_files_sublist (p : UploadFile * Result Exception json -> bool)
    files (fr : Frame W) :
  sublist (List.map fst (List.filter p (attempts files fr).1)) files.
Proof.
  rewrite <- (attempts_files files fr) at 2.
  induction (attempts files fr).1 as [|a t IH]; cbn; [constructor|].
  destruct (p a); cbn; now constructor.
Qed.

End Runs.

(** ** Calls issued by the handlers *)

Lemma put_calls_map (l : list PutObject) :
  put_calls (List.map PutObjectCall l) = l.
Proof.
  unfold put_calls. induction l as [|a l IH]; cbn in *; congruence.
Qed.

(** [upload_file] issues one [put_object] call once the payload is read,
    and none otherwise. *)
Lemma upload_file_put_calls {W} region bucket (client : S3Client W) file folder w :
  put_calls (calls (upload_file region bucket client file (enter folder w)).2) =
    match read file with
    | Returns file_contents => [upload_file_args bucket file folder file_contents]
    | Raises _ => []
    end.
Proof.
  rewrite upload_file_run. destruct (read file) as [b|e]; [|reflexivity].
  cbn. now destruct (put_object client _ w) as [[[]|e] w'].
Qed.

(** [upload_multiple_files] issues one [put_object] call for each file that
    can be read, in the order of the files. *)
Lemma upload_multiple_files_put_calls {W} region bucket (client : S3Client W)
    files folder w :
  put_calls (calls (upload_multiple_files region bucket client files
                      (enter folder w)).2) =
    omap (planned_put bucket folder) files.
Proof.
  rewrite upload_multiple_files_run. cbn [snd].
  rewrite (attempts_calls region bucket client files (enter folder w) folder)
    by reflexivity.
  cbn. apply put_calls_map.
Qed.

Lemma planned_keys bucket folder files names :
  List.map filename files = List.map Some names ->
  forallb readable files = true ->
  List.map Key (omap (planned_put bucket folder) files) =
    List.map (fun n => Some (buildKey folder n)) names.
Proof.
  revert names. induction files as [|file files IH]; intros [|n names] Hn Hr;
    try discriminate; [reflexivity|].
  cbn in Hn, Hr. injection Hn as Hfile Hn.
  apply andb_prop in Hr as [Hfile_r Hr].
  specialize (IH names Hn Hr). unfold readable in Hfile_r.
  cbn [omap list_omap]. unfold planned_put at 1.
  destruct (read file) as [b|e]; [|discriminate].
  cbn. rewrite Hfile, key_after_named. f_equal. exact IH.
Qed.

(** ** Key construction *)

(** C1. The key under which both upload handlers store a file named
    [fileName] is [buildKey folder fileName]: the file name unchanged when
    the folder is absent or empty, and otherwise the folder without its
    trailing separators (all of them removed, nothing else removed), one
    separator, and the file name.  In a batch this holds for every file,
    although the loop reassigns [folder] on each turn. *)
Theorem key_construction (folder : option string) :
  (forall fileName,
     PyStr.truthy_opt folder = false -> buildKey folder fileName = fileName)
  /\ (forall f fileName,
        folder = Some f -> f <> "" ->
        buildKey folder fileName = PyStr.rstrip slash f +:+ "/" +:+ fileName
        /\ PyStr.endswith (PyStr.rstrip slash f) slash = false
        /\ (exists k, f = PyStr.rstrip slash f +:+ PyStr.repeat slash k)
        /\ forall p k,
             f = p +:+ PyStr.repeat slash k ->
             PyStr.endswith p slash = false ->
             p = PyStr.rstrip slash f)
  /\ (forall W region bucket (client : S3Client W) (w : W) file fileName,
        filename file = Some fileName -> readable file = true ->
        List.map Key
          (put_calls (calls (upload_file region bucket client file
                               (enter folder w)).2))
        = [Some (buildKey folder fileName)])
  /\ (forall W region bucket (client : S3Client W) (w : W) files names,
        List.map filename files = List.map Some names ->
        forallb readable files = true ->
        List.map Key
          (put_calls (calls (upload_multiple_files region bucket client files
                               (enter folder w)).2))
        = List.map (fun n => Some (buildKey folder n)) names).
Proof.
  repeat split.
  - intros fileName. destruct folder as [[|a f]|]; cbn; congruence.
  - subst folder. destruct f; [contradiction | reflexivity].
  - apply PyStrFacts.rstrip_endswith.
  - apply PyStrFacts.rstrip_decompose.
  - intros p k -> Hp. symmetry. now apply PyStrFacts.rstrip_unique.
  - intros W region bucket client w file fileName Hname Hread.
    rewrite upload_file_put_calls. unfold readable in Hread.
    destruct (read file) as [b|e]; [|discriminate].
    cbn. now rewrite Hname, key_after_named.
  - intros W region bucket client w files names Hnames Hread.
    rewrite upload_multiple_files_put_calls. now apply planned_keys.
Qed.

Lemma key_construction_witness :
  buildKey (Some "docs//") "a.pdf" = "docs/a.pdf"
  /\ List.map Key
       (put_calls (calls (upload_file "eu-north-1" "study2material"
                            Doubles.accept_all (Doubles.text_file "a.pdf")
                            (enter (Some "docs//") tt)).2))
     = [Some "docs/a.pdf"]
  /\ List.map Key
       (put_calls (calls (upload_multiple_files "eu-north-1" "study2material"
                            (Doubles.refuse_key "docs/a.pdf")
                            [Doubles.text_file "a.pdf"; Doubles.text_file "b.pdf"]
                            (enter (Some "docs//") tt)).2))
     = [Some "docs/a.pdf"; Some "docs/b.pdf"]
  /\ buildKey None "a.txt" = "a.txt".
Proof.
  destruct (key_construction (Some "docs//")) as (_ & Hshape & Hone & Hmany).
  destruct (key_construction None) as (Hnone & _).
  destruct (Hshape "docs//" "a.pdf" eq_refl ltac:(discriminate)) as (Hkey & _).
  split; [|split; [|split]].
  - exact Hkey.
  - exact (Hone unit "eu-north-1" "study2material" Doubles.accept_all tt
             (Doubles.text_file "a.pdf") "a.pdf" eq_refl eq_refl).
  - exact (Hmany unit "eu-north-1" "study2material"
             (Doubles.refuse_key "docs/a.pdf") tt
             [Doubles.text_file "a.pdf"; Doubles.text_file "b.pdf"]
             ["a.pdf"; "b.pdf"] eq_refl eq_refl).
  - exact (Hnone "a.txt" eq_refl).
Defined.

(** C9. The key block computes a function of [folder] and the file name
    alone: it always returns (it raises nothing), it issues no call and
    leaves the outside world as it was, its result is the same for any file
    content, content type, world and call history, and evaluating it again
    after its own reassignment of [folder] yields the same key. *)
Theorem key_builder_pure :
  forall (W W' E : Type) (folder : option string) (name : option string)
         ct ct' rd rd' (w : W) (w' : W') cs cs',
    let file := {| filename := name; content_type := ct; read := rd |} in
    let file' := {| filename := name; content_type := ct'; read := rd' |} in
    let fr := {| folder := folder; world := w; calls := cs |} in
    let fr' := {| folder := folder; world := w'; calls := cs' |} in
    exists s3_key fr1,
      construct_s3_key (E:=E) file fr = (Returns s3_key, fr1)
      /\ world fr1 = w /\ calls fr1 = cs
      /\ s3_key = key_after folder name
      /\ (construct_s3_key (E:=E) file' fr').1 = Returns s3_key
      /\ (construct_s3_key (E:=E) file fr1).1 = Returns s3_key.
Proof.
  intros W W' E fo name ct ct' rd rd' w w' cs cs' file file' fr fr'.
  exists (key_after fo name). eexists. split; [apply construct_s3_key_run|].
  subst file file' fr fr'. cbn [world calls folder filename].
  rewrite !construct_s3_key_run. cbn [fst folder filename].
  now rewrite key_after_folder_after.
Qed.

(** ** Single upload *)

(** C3. A successful single upload of a payload [b] named [n] with content
    type [c] and no folder answers 200 with [size] the number of bytes of
    [b], [s3_key] equal to [n], [content_type] equal to [c], and the [url]
    made of the bucket, the region's storage endpoint and the key, which
    therefore ends in [/n]. *)
Theorem successful_upload_response :
  forall W region bucket (client : S3Client W) (w : W) file folder b n c,
    filename file = Some n ->
    content_type file = Some c ->
    read file = Returns b ->
    PyStr.truthy_opt folder = false ->
    http_status (upload_file region bucket client file (enter folder w)).1
      = 200%Z ->
    let url :=
      "https://" +:+ bucket +:+ ".s3." +:+ region +:+ ".amazonaws.com/" +:+ n in
    exists content,
      (upload_file region bucket client file (enter folder w)).1
        = Returns (JSONResponse 200 content)
      /\ Json.get "size" content = Some (JInt (Z.of_nat (length b)))
      /\ Json.get "s3_key" content = Some (JStr n)
      /\ Json.get "content_type" content = Some (JStr c)
      /\ Json.get "bucket" content = Some (JStr bucket)
      /\ Json.get "url" content = Some (JStr url)
      /\ exists prefix, url = prefix +:+ "/" +:+ n.
Proof.
  intros W region bucket client w file fo b n c Hn Hc Hb Hfolder Hstatus url.
  rewrite upload_file_run in Hstatus |- *. rewrite Hb in Hstatus |- *.
  cbn [enter folder world calls] in Hstatus |- *.
  destruct (put_object client _ w) as [[[]|e] w']; [|discriminate Hstatus].
  assert (Hkey : key_after fo (filename file) = Some n).
  { rewrite Hn. destruct fo as [[|a f]|]; [reflexivity|discriminate|reflexivity]. }
  eexists. split; [reflexivity|].
  unfold upload_file_content. rewrite Hkey, Hc. cbn.
  repeat (split; [reflexivity|]).
  exists ("https://" +:+ bucket +:+ ".s3." +:+ region +:+ ".amazonaws.com").
  subst url. now rewrite !append_assoc.
Qed.

Lemma successful_upload_response_witness :
  exists content,
    (upload_file "eu-north-1" "study2material" Doubles.accept_all
       (Doubles.text_file "note.txt") (enter None tt)).1
      = Returns (JSONResponse 200 content)
    /\ Json.get "size" content = Some (JInt 10)
    /\ Json.get "s3_key" content = Some (JStr "note.txt")
    /\ Json.get "content_type" content = Some (JStr "text/plain")
    /\ Json.get "url" content
       = Some (JStr "https://study2material.s3.eu-north-1.amazonaws.com/note.txt").
Proof.
  destruct (successful_upload_response unit "eu-north-1" "study2material"
              Doubles.accept_all tt (Doubles.text_file "note.txt") None
              Doubles.ten_bytes "note.txt" "text/plain"
              eq_refl eq_refl eq_refl eq_refl eq_refl)
    as (content & Hrun & Hsize & Hkey & Hct & _ & Hurl & _).
  exists content. split; [exact Hrun|].
  split; [exact Hsize|]. split; [exact Hkey|]. split; [exact Hct|exact Hurl].
Defined.

(** Against C2 as stated: a payload without a file name, sent with a
    folder, is not rejected.  The object is written under the key
    [docs/None] (or [docs/] for an empty name) and the answer is 200. *)
Lemma nameless_upload_is_stored :
  let empty_name :=
    {| filename := Some ""; content_type := Some "text/plain";
       read := Returns Doubles.ten_bytes |} in
  let run file :=
    upload_file "eu-north-1" "study2material" Doubles.validating file
      (enter (Some "docs") 0) in
  filename Doubles.nameless = None
  /\ http_status (run Doubles.nameless).1 = 200%Z
  /\ List.map Key (put_calls (calls (run Doubles.nameless).2)) = [Some "docs/None"]
  /\ world (run Doubles.nameless).2 = 1
  /\ http_status (run empty_name).1 = 200%Z
  /\ List.map Key (put_calls (calls (run empty_name).2)) = [Some "docs/"]
  /\ world (run empty_name).2 = 1.
Proof. repeat split. Qed.

(** C2, as the handler behaves.  [upload_file] does not check the file
    name.  For a payload that has none it issues one [put_object] call,
    whose key is built from the missing name: the folder, one separator
    and the text of the name ([None] for an absent one) when a folder is
    given, the name itself when none is.  Its answer is the outcome of that
    call: 200 when the call returns, and 500 with the failure detail, the
    world being left as the call left it, when the call raises. *)
Theorem upload_without_filename :
  forall W region bucket (client : S3Client W) (w : W) file folder b,
    PyStr.truthy_opt (filename file) = false ->
    read file = Returns b ->
    let args := upload_file_args bucket file folder b in
    let run := upload_file region bucket client file (enter folder w) in
    put_calls (calls run.2) = [args]
    /\ (forall f, folder = Some f -> f <> "" ->
          Key args = Some (PyStr.rstrip slash f +:+ "/"
                             +:+ PyStr.format (filename file)))
    /\ (PyStr.truthy_opt folder = false -> Key args = filename file)
    /\ (forall w', put_object client args w = (Returns tt, w') ->
          http_status run.1 = 200%Z /\ world run.2 = w')
    /\ (forall e w', put_object client args w = (Raises e, w') ->
          run.1 = Raises (HTTPException 500 (upload_failure_detail e))
          /\ world run.2 = w').
Proof.
  intros W region bucket client w file fo b Hname Hread args run.
  subst run. rewrite upload_file_put_calls, upload_file_run, Hread.
  cbn [enter folder world calls]. fold args.
  split; [reflexivity|]. split; [|split; [|split]].
  - intros f -> Hf. subst args. cbn.
    destruct f; [contradiction|]. cbn. now rewrite append_assoc.
  - intros Hfo. subst args. cbn.
    destruct fo as [[|a f]|]; [reflexivity|discriminate|reflexivity].
  - intros w' ->. now split.
  - intros e w' ->. now split.
Qed.

Lemma upload_without_filename_witness :
  (let run := upload_file "eu-north-1" "study2material" Doubles.validating
                Doubles.nameless (enter None 0) in
   List.map Key (put_calls (calls run.2)) = [None]
   /\ run.1 = Raises (HTTPException 500 "Upload failed: Parameter validation failed")
   /\ world run.2 = 0)
  /\ (let run := upload_file "eu-north-1" "study2material" Doubles.validating
                   Doubles.nameless (enter (Some "docs/") 0) in
      List.map Key (put_calls (calls run.2)) = [Some "docs/None"]
      /\ http_status run.1 = 200%Z
      /\ world run.2 = 1).
Proof.
  split.
  - destruct (upload_without_filename nat "eu-north-1" "study2material"
                Doubles.validating 0 Doubles.nameless None Doubles.ten_bytes
                eq_refl eq_refl) as (Hcalls & _ & Hkey & _ & Hraises).
    destruct (Hraises (OtherException "Parameter validation failed") 0 eq_refl)
      as [Hrun Hworld].
    split; [|split; [exact Hrun | exact Hworld]].
    rewrite Hcalls. cbn [List.map]. now rewrite (Hkey eq_refl).
  - destruct (upload_without_filename nat "eu-north-1" "study2material"
                Doubles.validating 0 Doubles.nameless (Some "docs/")
                Doubles.ten_bytes eq_refl eq_refl)
      as (Hcalls & Hkey & _ & Hreturns & _).
    destruct (Hreturns 1 eq_refl) as [Hstatus Hworld].
    split; [|split; [exact Hstatus | exact Hworld]].
    rewrite Hcalls. cbn [List.map].
    now rewrite (Hkey "docs/" eq_refl ltac:(discriminate)).
Defined.

(** C5. When the storage write of a single upload raises, the handler
    answers 500.  For a provider error the detail is
    [S3 upload failed: <code> - <message>] with the code and the message of
    the provider's error response (and [Unknown], or the text of the
    exception, where the response has none); for any other exception it is
    [Upload failed: <message>]. *)
Theorem upload_storage_failure :
  forall W region bucket (client : S3Client W) (w w' : W) file folder b e,
    read file = Returns b ->
    put_object client (upload_file_args bucket file folder b) w = (Raises e, w') ->
    let run := upload_file region bucket client file (enter folder w) in
    http_status run.1 = 500%Z
    /\ match e with
       | ClientError response _ _ =>
           let error := dict_get response "Error" ∅ in
           run.1 = Raises (HTTPException 500
                             ("S3 upload failed: "
                                +:+ dict_get error "Code" "Unknown" +:+ " - "
                                +:+ dict_get error "Message" (str e)))
           /\ forall (err : gmap string string) code message,
                response !! "Error" = Some err ->
                err !! "Code" = Some code ->
                err !! "Message" = Some message ->
                run.1 = Raises (HTTPException 500
                                  ("S3 upload failed: " +:+ code +:+ " - "
                                     +:+ message))
       | OtherException text =>
           run.1 = Raises (HTTPException 500 ("Upload failed: " +:+ text))
       end.
Proof.
  intros W region bucket client w w' file fo b e Hread Hput run.
  subst run. rewrite upload_file_run, Hread.
  cbn [enter folder world calls]. rewrite Hput. cbn [fst http_status].
  split; [reflexivity|].
  destruct e as [response op ri|text]; [|reflexivity].
  split; [reflexivity|].
  intros err code message Herr Hcode Hmessage.
  unfold upload_failure_detail, dict_get.
  now rewrite Herr; cbn; rewrite Hcode, Hmessage.
Qed.

Lemma upload_storage_failure_witness :
  (upload_file "eu-north-1" "study2material" Doubles.refuse_all
     (Doubles.text_file "note.txt") (enter None tt)).1
    = Raises (HTTPException 500 "S3 upload failed: AccessDenied - Access Denied")
  /\ (upload_file "eu-north-1" "study2material" Doubles.breaks_after_one
        (Doubles.text_file "note.txt") (enter None 1)).1
     = Raises (HTTPException 500 "Upload failed: Connection reset").
Proof.
  split.
  - destruct (upload_storage_failure unit "eu-north-1" "study2material"
                Doubles.refuse_all tt tt (Doubles.text_file "note.txt") None
                Doubles.ten_bytes Doubles.access_denied eq_refl eq_refl)
      as (_ & _ & Hdetail).
    exact (Hdetail {[ "Code" := "AccessDenied"; "Message" := "Access Denied" ]}
             "AccessDenied" "Access Denied" eq_refl eq_refl eq_refl).
  - exact (proj2 (upload_storage_failure nat "eu-north-1" "study2material"
                    Doubles.breaks_after_one 1 2 (Doubles.text_file "note.txt")
                    None Doubles.ten_bytes (OtherException "Connection reset")
                    eq_refl eq_refl)).
Defined.

(** ** Health *)

Lemma str_ClientError_nonempty response operation_name retry_info :
  str (ClientError response operation_name retry_info) <> "".
Proof. discriminate. Qed.

(** C7. [health_check] answers with status [healthy] and the bucket name
    when [head_bucket] returns; when it raises a provider error the answer
    is still a 200, whose body has status [unhealthy], the bucket name and
    the text of the error, which is not empty. *)
Theorem health_reflects_storage :
  forall W bucket (client : S3Client W) (fr : Frame W),
    let run := health_check bucket client fr in
    (forall w', head_bucket client bucket (world fr) = (Returns tt, w') ->
       run.1 = Returns (Dict (JDict [("status", JStr "healthy");
                                     ("bucket", JStr bucket);
                                     ("connection", JStr "success")]))
       /\ http_status run.1 = 200%Z)
    /\ (forall response operation_name retry_info w',
          head_bucket client bucket (world fr)
            = (Raises (ClientError response operation_name retry_info), w') ->
          exists error,
            run.1 = Returns (Dict (JDict [("status", JStr "unhealthy");
                                          ("bucket", JStr bucket);
                                          ("error", JStr error)]))
            /\ error = str (ClientError response operation_name retry_info)
            /\ error <> ""
            /\ http_status run.1 = 200%Z).
Proof.
  intros W bucket client fr run. subst run.
  unfold health_check, Run.try_except_ClientError, Run.try_except, Run.bind,
    s3_head_bucket, Run.call, Run.ret.
  split.
  - intros w' ->. now split.
  - intros response operation_name retry_info w' ->. cbn.
    eexists. split; [reflexivity|]. split; [reflexivity|].
    split; [apply str_ClientError_nonempty | reflexivity].
Qed.

Lemma health_reflects_storage_witness :
  (health_check "study2material" Doubles.accept_all (enter None tt)).1
    = Returns (Dict (JDict [("status", JStr "healthy");
                            ("bucket", JStr "study2material");
                            ("connection", JStr "success")]))
  /\ (health_check "study2material" Doubles.refuse_all (enter None tt)).1
     = Returns (Dict (JDict
         [("status", JStr "unhealthy");
          ("bucket", JStr "study2material");
          ("error", JStr "An error occurred (404) when calling the HeadBucket operation: Not Found")])).
Proof.
  split.
  - exact (proj1 (proj1 (health_reflects_storage unit "study2material"
                           Doubles.accept_all (enter None tt)) tt eq_refl)).
  - destruct (proj2 (health_reflects_storage unit "study2material"
                       Doubles.refuse_all (enter None tt))
                {[ "Error" := {[ "Code" := "404"; "Message" := "Not Found" ]} ]}
                "HeadBucket" "" tt eq_refl)
      as (error & Hrun & Herror & _).
    rewrite Hrun, Herror. reflexivity.
Defined.

(** ** Access policy *)

(** C8. Every [put_object] call of the single upload passes
    [ACL='public-read']; no [put_object] call of the batch upload passes an
    [ACL]; and for the same file and folder the call of the batch is the
    call of the single upload with that one keyword left out. *)
Theorem acl_only_on_single_upload :
  forall W region bucket (client : S3Client W) (w : W) file files folder,
    Forall (fun args => ACL args = Some "public-read")
      (put_calls (calls (upload_file region bucket client file
                           (enter folder w)).2))
    /\ Forall (fun args => ACL args = None)
         (put_calls (calls (upload_multiple_files region bucket client files
                              (enter folder w)).2))
    /\ put_calls (calls (upload_multiple_files region bucket client [file]
                           (enter folder w)).2)
       = List.map without_ACL
           (put_calls (calls (upload_file region bucket client file
                                (enter folder w)).2))
    /\ (readable file = true ->
        length (put_calls (calls (upload_file region bucket client file
                                    (enter folder w)).2)) = 1).
Proof.
  intros W region bucket client w file files fo.
  rewrite !upload_multiple_files_put_calls, upload_file_put_calls.
  split; [|split; [|split]].
  - destruct (read file); repeat constructor.
  - induction files as [|f files IH]; cbn; [constructor|].
    unfold planned_put at 1. destruct (read f); [|exact IH].
    constructor; [reflexivity | exact IH].
  - cbn. unfold planned_put. now destruct (read file).
  - unfold readable. now destruct (read file).
Qed.

Lemma acl_only_on_single_upload_witness :
  readable (Doubles.text_file "note.txt") = true
  /\ length
       (put_calls (calls (upload_file "eu-north-1" "study2material"
                            Doubles.accept_all (Doubles.text_file "note.txt")
                            (enter None tt)).2))
     = 1.
Proof.
  split; [reflexivity|].
  exact (proj2 (proj2 (proj2
           (acl_only_on_single_upload unit "eu-north-1" "study2material"
              Doubles.accept_all tt (Doubles.text_file "note.txt")
              [Doubles.text_file "note.txt"] None))) eq_refl).
Defined.

(** ** Batch upload *)

Lemma successes_filenames (t : list (UploadFile * Result Exception json))
    region bucket folder :
  List.map (Json.get "filename")
    (List.map (fun a => success_entry region bucket a.1 folder) t) =
  List.map (fun a => Some (Json.of_opt (filename a.1))) t.
Proof. induction t as [|a t IH]; cbn in *; congruence. Qed.

(** C4. In a batch every file is attempted, in the order supplied and
    whatever happened to the files before it: a [put_object] call is issued
    for each file that can be read, whether or not earlier calls raised.
    The report lists the files whose attempt returned under [results] and
    those whose attempt raised under [errors], each in the order of the
    request. *)
Theorem batch_failure_does_not_abort :
  forall W region bucket (client : S3Client W) (w : W) files folder,
    let run :=
      upload_multiple_files region bucket client files (enter folder w) in
    let t := (attempts region bucket client files (enter folder w)).1 in
    List.map fst t = files
    /\ put_calls (calls run.2) = omap (planned_put bucket folder) files
    /\ exists results errors,
         run.1 = Returns (JSONResponse 200
                            (batch_content (length files) results errors))
         /\ results = List.map (fun a => success_entry region bucket a.1 folder)
                        (List.filter succeeded t)
         /\ List.map (Json.get "filename") results
            = List.map (fun a => Some (Json.of_opt (filename a.1)))
                (List.filter succeeded t)
         /\ List.map (Json.get "filename") errors
            = List.map (fun a => Some (Json.of_opt (filename a.1)))
                (List.filter failed t)
         /\ sublist (List.map fst (List.filter succeeded t)) files
         /\ sublist (List.map fst (List.filter failed t)) files.
Proof.
  intros W region bucket client w files fo run t.
  split; [apply attempts_files|].
  split; [apply upload_multiple_files_put_calls|].
  subst run. rewrite upload_multiple_files_run. fold t.
  eexists _, _. split; [reflexivity|].
  assert (Hresults : successes t
            = List.map (fun a => success_entry region bucket a.1 fo)
                (List.filter succeeded t))
    by now apply attempts_successes.
  split; [exact Hresults|].
  split; [rewrite Hresults; apply successes_filenames|].
  split; [apply failures_filenames|].
  split; apply filter_files_sublist.
Qed.

(** Three files, the write of the second refused. *)
Example batch_partial_failure :
  let run :=
    upload_multiple_files "eu-north-1" "study2material"
      (Doubles.refuse_key "b.txt")
      [Doubles.text_file "a.txt"; Doubles.text_file "b.txt";
       Doubles.text_file "c.txt"]
      (enter None tt) in
  exists results errors,
    run.1 = Returns (JSONResponse 200 (batch_content 3 results errors))
    /\ Z.of_nat (length results) = 2%Z
    /\ Z.of_nat (length errors) = 1%Z
    /\ List.map (Json.get "filename") results
       = [Some (JStr "a.txt"); Some (JStr "c.txt")]
    /\ List.map (Json.get "filename") errors = [Some (JStr "b.txt")]
    /\ List.map Key (put_calls (calls run.2))
       = [Some "a.txt"; Some "b.txt"; Some "c.txt"].
Proof. eexists _, _. repeat split. Qed.

(** Three files, the connection lost after the first write: the second and
    the third are still sent. *)
Example batch_after_connection_loss :
  let run :=
    upload_multiple_files "eu-north-1" "study2material"
      Doubles.breaks_after_one
      [Doubles.text_file "a.txt"; Doubles.text_file "b.txt";
       Doubles.text_file "c.txt"]
      (enter (Some "docs") 0) in
  exists results errors,
    run.1 = Returns (JSONResponse 200 (batch_content 3 results errors))
    /\ List.map (Json.get "filename") results = [Some (JStr "a.txt")]
    /\ List.map (Json.get "filename") errors
       = [Some (JStr "b.txt"); Some (JStr "c.txt")]
    /\ List.map Key (put_calls (calls run.2))
       = [Some "docs/a.txt"; Some "docs/b.txt"; Some "docs/c.txt"]
    /\ world run.2 = 3.
Proof. eexists _, _. repeat split. Qed.

Lemma attempts_all_raise {W} region bucket (client : S3Client W) files :
  (forall args w0, exists e w1, put_object client args w0 = (Raises e, w1)) ->
  forall fr, successes (attempts region bucket client files fr).1 = [].
Proof.
  intros Hraise. induction files as [|file files IH]; intros fr; [reflexivity|].
  cbn [attempts]. unfold attempt.
  destruct (read file) as [b|e].
  - destruct (Hraise (batch_args bucket file (folder fr) b) (world fr))
      as (e & w1 & ->).
    match goal with
    | |- context [attempts _ _ _ files ?fr'] =>
        specialize (IH fr');
        destruct (attempts region bucket client files fr') as [t fr'']
    end.
    exact IH.
  - specialize (IH fr).
    destruct (attempts region bucket client files fr) as [t fr''].
    exact IH.
Qed.

(** C6. Whatever the number of files whose upload fails, the batch handler
    returns a response with status 200 and reports the failures in its
    body; this includes the batch in which every write is refused, where
    [results] is empty and [errors] has one entry per file. *)
Theorem batch_always_answers_200 :
  forall W region bucket (client : S3Client W) (w : W) files folder,
    let run :=
      upload_multiple_files region bucket client files (enter folder w) in
    let t := (attempts region bucket client files (enter folder w)).1 in
    http_status run.1 = 200%Z
    /\ (exists results errors,
          run.1 = Returns (JSONResponse 200
                             (batch_content (length files) results errors))
          /\ length errors = length (List.filter failed t))
    /\ ((forall args w0, exists e w1,
           put_object client args w0 = (Raises e, w1)) ->
        exists errors,
          run.1 = Returns (JSONResponse 200
                             (batch_content (length files) [] errors))
          /\ length errors = length files).
Proof.
  intros W region bucket client w files fo run t.
  subst run. rewrite upload_multiple_files_run. fold t. cbn [fst http_status].
  split; [reflexivity|]. split.
  - eexists _, _. split; [reflexivity|].
    rewrite <- (length_map (Json.get "filename")), failures_filenames.
    apply length_map.
  - intros Hraise. eexists. split.
    + unfold t. now rewrite attempts_all_raise.
    + pose proof (attempts_count region bucket client files (enter fo w)) as Hn.
      rewrite attempts_all_raise in Hn by assumption. exact Hn.
Qed.

Lemma batch_always_answers_200_witness :
  exists errors,
    (upload_multiple_files "eu-north-1" "study2material" Doubles.refuse_all
       [Doubles.text_file "a.txt"; Doubles.text_file "b.txt"]
       (enter None tt)).1
      = Returns (JSONResponse 200 (batch_content 2 [] errors))
    /\ length errors = 2.
Proof.
  exact (proj2 (proj2
           (batch_always_answers_200 unit "eu-north-1" "study2material"
              Doubles.refuse_all tt
              [Doubles.text_file "a.txt"; Doubles.text_file "b.txt"] None))
           (fun _ w0 => ex_intro _ Doubles.access_denied
                          (ex_intro _ w0 eq_refl))).
Defined.

(** C10. In the report of a batch every file has exactly one entry, in
    [results] if its attempt returned and in [errors] if it raised; so the
    [successful] and [failed] counts add up to the number of files, which
    is also the number the message gives. *)
Theorem batch_counts :
  forall W region bucket (client : S3Client W) (w : W) files folder,
    let run :=
      upload_multiple_files region bucket client files (enter folder w) in
    exists results errors,
      run.1 = Returns (JSONResponse 200
                (JDict [("message",
                         JStr ("Processed " +:+ pretty (length files)
                                 +:+ " file(s)"));
                        ("successful", JInt (Z.of_nat (length results)));
                        ("failed", JInt (Z.of_nat (length errors)));
                        ("results", JList results);
                        ("errors", JList errors)]))
      /\ length results + length errors = length files
      /\ (Z.of_nat (length results) + Z.of_nat (length errors)
          = Z.of_nat (length files))%Z
      /\ exists t : list (UploadFile * Result Exception json),
           List.map fst t = files
           /\ results = successes t
           /\ errors = failures t
           /\ length results = length (List.filter succeeded t)
           /\ length errors = length (List.filter failed t)
           /\ Forall (fun a => succeeded a = negb (failed a)) t.
Proof.
  intros W region bucket client w files fo run.
  subst run. rewrite upload_multiple_files_run. cbn [fst].
  set (t := (attempts region bucket client files (enter fo w)).1).
  pose proof (attempts_count region bucket client files (enter fo w)) as Hn.
  fold t in Hn.
  exists (successes t), (failures t).
  split; [reflexivity|]. split; [exact Hn|]. split; [lia|].
  exists t. split; [apply attempts_files|].
  split; [reflexivity|]. split; [reflexivity|].
  split; [|split].
  - unfold t.
    rewrite (attempts_successes region bucket client files (enter fo w) fo)
      by reflexivity.
    apply length_map.
  - rewrite <- (length_map (Json.get "filename")), failures_filenames.
    apply length_map.
  - apply Forall_forall. intros a _. unfold failed. now destruct (succeeded a).
Qed.

(** ** Start of the service *)








(** ** Single upload: failures and answers *)

(** X4. When the payload of a single upload cannot be read, the handler
    answers 500 without calling the store: the detail is
    [Upload failed: <message>] for an ordinary exception, and the world is
    left as it was. *)
Theorem upload_unreadable_payload :
  forall W region bucket (client : S3Client W) (w : W) file folder e,
    read file = Raises e ->
    let run := upload_file region bucket client file (enter folder w) in
    run.1 = Raises (HTTPException 500 (upload_failure_detail e))
    /\ (forall text, e = OtherException text ->
          run.1 = Raises (HTTPException 500 ("Upload failed: " +:+ text)))
    /\ calls run.2 = []
    /\ world run.2 = w.
Proof.
  intros W region bucket client w file fo e Hread run. subst run.
  rewrite upload_file_run, Hread. cbn.
  split; [reflexivity|]. split; [|now split].
  now intros text ->.
Qed.

Lemma upload_unreadable_payload_witness :
  let file := {| filename := Some "note.txt"; content_type := None;
                 read := Raises (OtherException "I/O operation on closed file") |} in
  let run := upload_file "eu-north-1" "study2material" Doubles.validating
               file (enter None 0) in
  run.1 = Raises (HTTPException 500 "Upload failed: I/O operation on closed file")
  /\ world run.2 = 0.
Proof.
  intros file run.
  destruct (upload_unreadable_payload nat "eu-north-1" "study2material"
              Doubles.validating 0 file None
              (OtherException "I/O operation on closed file") eq_refl)
    as (_ & Hdetail & _ & Hworld).
  split; [exact (Hdetail _ eq_refl) | exact Hworld].
Defined.

(** X5. A single upload answers 200 or 500 and nothing else, and never
    lets an exception of the store or of the payload escape; it answers
    200 exactly when the payload was read and the [put_object] call
    returned.  It issues at most one call, never [head_bucket]. *)
Theorem upload_answers_200_or_500 :
  forall W region bucket (client : S3Client W) (w : W) file folder,
    let run := upload_file region bucket client file (enter folder w) in
    (http_status run.1 = 200%Z \/ http_status run.1 = 500%Z)
    /\ (forall e, run.1 <> Raises (Uncaught e))
    /\ (http_status run.1 = 200%Z
        <-> exists b w',
              read file = Returns b
              /\ put_object client (upload_file_args bucket file folder b) w
                 = (Returns tt, w'))
    /\ length (calls run.2) <= 1
    /\ head_calls (calls run.2) = [].
Proof.
  intros W region bucket client w file fo run. subst run.
  rewrite upload_file_run. cbn [enter folder world calls].
  destruct (read file) as [b|e]; cbn.
  - destruct (put_object client _ w) as [[[]|e] w'] eqn:Hput; cbn.
    + repeat split; auto; try discriminate. intros _. now exists b, w'.
    + repeat split; auto; try discriminate.
      intros (b' & w'' & [= <-] & Hput'). congruence.
  - repeat split; auto; try discriminate. intros (b & w' & [=] & _).
Qed.

Lemma upload_answers_200_or_500_witness :
  http_status (upload_file "eu-north-1" "study2material" Doubles.validating
                 (Doubles.text_file "note.txt") (enter None 0)).1 = 200%Z.
Proof.
  apply (proj1 (proj2 (proj2
           (upload_answers_200_or_500 nat "eu-north-1" "study2material"
              Doubles.validating 0 (Doubles.text_file "note.txt") None)))).
  exists Doubles.ten_bytes, 1. split; reflexivity.
Defined.

(** X6. A successful single upload of a file named [n] into any folder
    reports the key [buildKey folder n], the file name [n], and the url of
    that key in the configured bucket and region. *)
Theorem upload_into_folder :
  forall W region bucket (client : S3Client W) (w : W) file folder n,
    filename file = Some n ->
    http_status (upload_file region bucket client file (enter folder w)).1
      = 200%Z ->
    exists content,
      (upload_file region bucket client file (enter folder w)).1
        = Returns (JSONResponse 200 content)
      /\ Json.get "filename" content = Some (JStr n)
      /\ Json.get "s3_key" content = Some (JStr (buildKey folder n))
      /\ Json.get "url" content
         = Some (JStr ("https://" +:+ bucket +:+ ".s3." +:+ region
                         +:+ ".amazonaws.com/" +:+ buildKey folder n))
      /\ Json.get "message" content = Some (JStr "File uploaded successfully").
Proof.
  intros W region bucket client w file fo n Hn Hstatus.
  rewrite upload_file_run in Hstatus |- *.
  destruct (read file) as [b|e]; [|discriminate Hstatus].
  cbn [enter folder world calls] in Hstatus |- *.
  destruct (put_object client _ w) as [[[]|e] w']; [|discriminate Hstatus].
  eexists. split; [reflexivity|].
  unfold upload_file_content. rewrite Hn, key_after_named. cbn.
  repeat split.
Qed.

Lemma upload_into_folder_witness :
  exists content,
    (upload_file "eu-north-1" "study2material" Doubles.accept_all
       (Doubles.text_file "a.pdf") (enter (Some "docs") tt)).1
      = Returns (JSONResponse 200 content)
    /\ Json.get "s3_key" content = Some (JStr "docs/a.pdf")
    /\ Json.get "url" content
       = Some (JStr "https://study2material.s3.eu-north-1.amazonaws.com/docs/a.pdf").
Proof.
  destruct (upload_into_folder unit "eu-north-1" "study2material"
              Doubles.accept_all tt (Doubles.text_file "a.pdf") (Some "docs")
              "a.pdf" eq_refl eq_refl)
    as (content & Hrun & _ & Hkey & Hurl & _).
  exists content. split; [exact Hrun|]. split; [exact Hkey | exact Hurl].
Defined.

(** ** Folders and keys *)

(** X7. A folder made of separators only is not treated as no folder: the
    key of a single upload is then the file name after one leading
    separator. *)
Theorem separators_only_folder :
  forall W region bucket (client : S3Client W) (w : W) file n k,
    filename file = Some n ->
    readable file = true ->
    List.map Key
      (put_calls (calls (upload_file region bucket client file
                           (enter (Some (PyStr.repeat slash (S k))) w)).2))
    = [Some ("/" +:+ n)].
Proof.
  intros W region bucket client w file n k Hn Hread.
  rewrite upload_file_put_calls. unfold readable in Hread.
  destruct (read file) as [b|e]; [|discriminate]. cbn [List.map upload_file_args Key].
  rewrite Hn, key_after_named. unfold buildKey. cbn [PyStr.repeat].
  change (String slash (PyStr.repeat slash k))
    with ("" +:+ PyStr.repeat slash (S k)).
  now rewrite PyStrFacts.rstrip_app_repeat.
Qed.

Lemma separators_only_folder_witness :
  List.map Key
    (put_calls (calls (upload_file "eu-north-1" "study2material"
                         Doubles.accept_all (Doubles.text_file "a.pdf")
                         (enter (Some "//") tt)).2))
  = [Some "/a.pdf"].
Proof.
  exact (separators_only_folder unit "eu-north-1" "study2material"
           Doubles.accept_all tt (Doubles.text_file "a.pdf") "a.pdf" 1
           eq_refl eq_refl).
Defined.

(** X8. Within one folder the key determines the file name: two named
    files whose single uploads use the same key have the same name. *)
Theorem key_determines_name :
  forall W W' region bucket (client : S3Client W) (client' : S3Client W')
         (w : W) (w' : W') file file' folder n n',
    filename file = Some n -> filename file' = Some n' ->
    readable file = true -> readable file' = true ->
    List.map Key (put_calls (calls (upload_file region bucket client file
                                      (enter folder w)).2))
    = List.map Key (put_calls (calls (upload_file region bucket client' file'
                                        (enter folder w')).2)) ->
    n = n'.
Proof.
  intros W W' region bucket client client' w w' file file' fo n n'
    Hn Hn' Hr Hr'.
  rewrite !upload_file_put_calls. unfold readable in Hr, Hr'.
  destruct (read file) as [b|e]; [|discriminate].
  destruct (read file') as [b'|e']; [|discriminate].
  cbn. rewrite Hn, Hn', !key_after_named. intros [= Hkey].
  destruct fo as [[|a f]|]; cbn in Hkey; try exact Hkey.
  now repeat apply String.app_inj in Hkey.
Qed.

Lemma key_determines_name_witness :
  let file' := {| filename := Some "a.pdf"; content_type := None;
                  read := Returns [] |} in
  List.map Key (put_calls (calls (upload_file "eu-north-1" "study2material"
                                    Doubles.accept_all (Doubles.text_file "a.pdf")
                                    (enter (Some "docs") tt)).2))
  = List.map Key (put_calls (calls (upload_file "eu-north-1" "study2material"
                                      Doubles.refuse_all file'
                                      (enter (Some "docs") tt)).2))
  /\ filename (Doubles.text_file "a.pdf") = filename file'.
Proof.
  intros file'. split; [reflexivity|].
  exact (f_equal Some
           (key_determines_name unit unit "eu-north-1" "study2material"
              Doubles.accept_all Doubles.refuse_all tt tt
              (Doubles.text_file "a.pdf") file' (Some "docs") "a.pdf" "a.pdf"
              eq_refl eq_refl eq_refl eq_refl eq_refl)).
Defined.

(** ** Batches and single uploads *)

(** X9. The [put_object] calls of a batch are those the single uploads of
    its files would issue, in the order of the files, each without the
    [ACL] keyword. *)
Theorem batch_calls_are_single_calls :
  forall W region bucket (client : S3Client W) (w : W) files folder,
    put_calls (calls (upload_multiple_files region bucket client files
                        (enter folder w)).2)
    = flat_map
        (fun file =>
           List.map without_ACL
             (put_calls (calls (upload_file region bucket client file
                                  (enter folder w)).2)))
        files.
Proof.
  intros W region bucket client w files fo.
  rewrite upload_multiple_files_put_calls.
  induction files as [|file files IH]; [reflexivity|].
  cbn [omap list_omap flat_map]. rewrite <- IH, upload_file_put_calls.
  unfold planned_put at 1. now destruct (read file).
Qed.

(** ** Folders that differ in trailing separators *)

Lemma key_after_trailing f k name :
  f <> "" ->
  key_after (Some (f +:+ PyStr.repeat slash k)) name = key_after (Some f) name.
Proof.
  intros Hf. destruct f as [|a f]; [contradiction|].
  cbn. now rewrite PyStrFacts.rstrip_app_repeat.
Qed.

Lemma folder_after_trailing f k :
  f <> "" ->
  folder_after (Some (f +:+ PyStr.repeat slash k)) = folder_after (Some f).
Proof.
  intros Hf. destruct f as [|a f]; [contradiction|].
  cbn. now rewrite PyStrFacts.rstrip_app_repeat.
Qed.

Lemma attempts_same_keys {W} region bucket (client : S3Client W) files :
  forall (fr1 fr2 : Frame W),
    world fr1 = world fr2 -> calls fr1 = calls fr2 ->
    (forall n, key_after (folder fr1) n = key_after (folder fr2) n) ->
    (attempts region bucket client files fr1).1
      = (attempts region bucket client files fr2).1
    /\ world (attempts region bucket client files fr1).2
       = world (attempts region bucket client files fr2).2
    /\ calls (attempts region bucket client files fr1).2
       = calls (attempts region bucket client files fr2).2.
Proof.
  induction files as [|file rest IH]; intros fr1 fr2 Hw Hc Hk; [now cbn|].
  cbn [attempts]. unfold attempt, batch_args, success_entry.
  destruct (read file) as [file_contents|e].
  - rewrite Hk, Hw, Hc.
    set (args := {| Bucket := bucket;
                    Key := key_after (folder fr2) (filename file);
                    Body := file_contents;
                    ContentType := content_type file; ACL := None |}).
    destruct (put_object client args (world fr2)) as [r w'].
    set (next1 := {| folder := folder_after (folder fr1); world := w';
                     calls := calls fr2 ++ [PutObjectCall args] |}).
    set (next2 := {| folder := folder_after (folder fr2); world := w';
                     calls := calls fr2 ++ [PutObjectCall args] |}).
    destruct (IH next1 next2 eq_refl eq_refl) as (Ht & Hw' & Hc').
    { intros n. cbn. now rewrite !key_after_folder_after. }
    destruct r as [[]|e]; cbn;
      destruct (attempts region bucket client rest next1) as [t1 fr1'];
      destruct (attempts region bucket client rest next2) as [t2 fr2'];
      cbn in *; now subst.
  - destruct (IH fr1 fr2 Hw Hc Hk) as (Ht & Hw' & Hc').
    destruct (attempts region bucket client rest fr1) as [t1 fr1'].
    destruct (attempts region bucket client rest fr2) as [t2 fr2'].
    cbn in *. now subst.
Qed.

(** X10. Trailing separators of a non-empty folder make no difference:
    with [folder] or with [folder] followed by any number of separators,
    each upload handler gives the same answer, issues the same calls and
    leaves the same world. *)
Theorem trailing_separators_make_no_difference :
  forall W region bucket (client : S3Client W) (w : W) file files f k,
    f <> "" ->
    let f' := f +:+ PyStr.repeat slash k in
    let single fo := upload_file region bucket client file (enter (Some fo) w) in
    let batch fo :=
      upload_multiple_files region bucket client files (enter (Some fo) w) in
    (single f').1 = (single f).1
    /\ calls (single f').2 = calls (single f).2
    /\ world (single f').2 = world (single f).2
    /\ (batch f').1 = (batch f).1
    /\ calls (batch f').2 = calls (batch f).2
    /\ world (batch f').2 = world (batch f).2.
Proof.
  intros W region bucket client w file files f k Hf f' single batch.
  assert (Hsingle : (single f').1 = (single f).1
                    /\ calls (single f').2 = calls (single f).2
                    /\ world (single f').2 = world (single f).2).
  { subst single f'. cbn beta. rewrite !upload_file_run.
    cbn [enter folder world calls].
    unfold upload_file_args, upload_file_content.
    rewrite key_after_trailing, folder_after_trailing by assumption.
    destruct (read file) as [b|e]; [|now cbn].
    now destruct (put_object client _ w) as [[[]|e] w']. }
  destruct Hsingle as (H1 & H2 & H3).
  do 3 (split; [assumption|]).
  subst batch f'. cbn beta. rewrite !upload_multiple_files_run. cbn [fst snd].
  destruct (attempts_same_keys region bucket client files
              (enter (Some (f +:+ PyStr.repeat slash k)) w) (enter (Some f) w)
              eq_refl eq_refl) as (Ht & Hw & Hc).
  { intros n. cbn [enter folder]. now apply key_after_trailing. }
  now rewrite Ht, Hw, Hc.
Qed.

Lemma trailing_separators_make_no_difference_witness :
  (upload_file "eu-north-1" "study2material" Doubles.validating
     (Doubles.text_file "a.pdf") (enter (Some "docs//") 0)).1
  = (upload_file "eu-north-1" "study2material" Doubles.validating
       (Doubles.text_file "a.pdf") (enter (Some "docs") 0)).1.
Proof.
  exact (proj1 (trailing_separators_make_no_difference nat "eu-north-1"
                  "study2material" Doubles.validating 0
                  (Doubles.text_file "a.pdf") [] "docs" 2
                  ltac:(discriminate))).
Defined.

(** ** Batches *)

Lemma attempts_app {W} region bucket (client : S3Client W) xs ys (fr : Frame W) :
  attempts region bucket client (xs ++ ys) fr =
    ((attempts region bucket client xs fr).1
       ++ (attempts region bucket client ys
             (attempts region bucket client xs fr).2).1,
     (attempts region bucket client ys
        (attempts region bucket client xs fr).2).2).
Proof.
  revert fr. induction xs as [|x xs IH]; intros fr.
  - cbn. now destruct (attempts region bucket client ys fr).
  - cbn [app attempts].
    destruct (attempt region bucket client x fr) as [r fr'].
    rewrite IH.
    destruct (attempts region bucket client xs fr') as [t1 fr1]. cbn.
    now destruct (attempts region bucket client ys fr1).
Qed.

Lemma successes_app (t1 t2 : list (UploadFile * Result Exception json)) :
  successes (t1 ++ t2) = successes t1 ++ successes t2.
Proof. unfold successes. apply omap_app. Qed.

Lemma failures_app (t1 t2 : list (UploadFile * Result Exception json)) :
  failures (t1 ++ t2) = failures t1 ++ failures t2.
Proof. unfold failures. apply omap_app. Qed.

(** X11. A batch can be cut in two: uploading [xs ++ ys] reports the
    results and errors of [xs] followed by those that [ys] gives when it is
    uploaded from where [xs] left off, and ends in the same state. *)
Theorem batch_of_concatenation :
  forall W region bucket (client : S3Client W) (w : W) xs ys folder,
    let first := upload_multiple_files region bucket client xs (enter folder w) in
    let second := upload_multiple_files region bucket client ys first.2 in
    exists results1 errors1 results2 errors2,
      first.1 = Returns (JSONResponse 200
                  (batch_content (length xs) results1 errors1))
      /\ second.1 = Returns (JSONResponse 200
                      (batch_content (length ys) results2 errors2))
      /\ upload_multiple_files region bucket client (xs ++ ys) (enter folder w)
         = (Returns (JSONResponse 200
              (batch_content (length xs + length ys)
                 (results1 ++ results2) (errors1 ++ errors2))),
            second.2).
Proof.
  intros W region bucket client w xs ys fo first second.
  subst second first. rewrite !upload_multiple_files_run. cbn [fst snd].
  eexists _, _, _, _. split; [reflexivity|]. split; [reflexivity|].
  rewrite attempts_app. cbn [fst snd].
  now rewrite successes_app, failures_app, length_app.
Qed.

Lemma failures_status (t : list (UploadFile * Result Exception json)) :
  Forall (fun entry =>
            Json.get "status" entry = Some (JStr "failed")
            /\ (exists text, Json.get "error" entry = Some (JStr text))
            /\ Json.get "s3_key" entry = None
            /\ Json.get "url" entry = None)
    (failures t).
Proof.
  unfold failures.
  induction t as [|[file [entry|e]] t IH]; cbn; [constructor | exact IH |].
  constructor; [|exact IH]. cbn. repeat split. now eexists.
Qed.

(** X12. In the report of a batch every entry of [results] has status
    [success], a key and a url and no error text, and every entry of
    [errors] has status [failed] and an error text and neither key nor
    url. *)
Theorem batch_entries_are_well_formed :
  forall W region bucket (client : S3Client W) (w : W) files folder,
    exists results errors,
      (upload_multiple_files region bucket client files (enter folder w)).1
        = Returns (JSONResponse 200
                     (batch_content (length files) results errors))
      /\ Forall (fun entry =>
                   Json.get "status" entry = Some (JStr "success")
                   /\ (exists url, Json.get "url" entry = Some (JStr url))
                   /\ (exists key, Json.get "s3_key" entry = Some key)
                   /\ Json.get "error" entry = None)
           results
      /\ Forall (fun entry =>
                   Json.get "status" entry = Some (JStr "failed")
                   /\ (exists text, Json.get "error" entry = Some (JStr text))
                   /\ Json.get "s3_key" entry = None
                   /\ Json.get "url" entry = None)
           errors.
Proof.
  intros W region bucket client w files fo.
  rewrite upload_multiple_files_run. cbn [fst].
  eexists _, _. split; [reflexivity|]. split; [|apply failures_status].
  rewrite (attempts_successes region bucket client files (enter fo w) fo)
    by reflexivity.
  induction (List.filter succeeded _) as [|a l IH]; cbn; constructor;
    [|exact IH].
  cbn. split; [reflexivity|]. split; [now eexists|].
  split; [now eexists|reflexivity].
Qed.



(** X14. For the same file and folder, the entry a batch reports and the
    body a single upload answers agree on the file name, the key and the
    url, whenever both uploads succeed. *)
Theorem batch_entry_agrees_with_single_upload :
  forall W W' region bucket (client : S3Client W) (client' : S3Client W')
         (w : W) (w' : W') file folder content entry,
    (upload_file region bucket client file (enter folder w)).1
      = Returns (JSONResponse 200 content) ->
    (upload_multiple_files region bucket client' [file] (enter folder w')).1
      = Returns (JSONResponse 200 (batch_content 1 [entry] [])) ->
    Forall (fun k => Json.get k entry = Json.get k content)
      ["filename"; "s3_key"; "url"].
Proof.
  intros W W' region bucket client client' w w' file fo content entry.
  rewrite upload_file_run, upload_multiple_files_run.
  cbn [attempts]. unfold attempt.
  destruct (read file) as [b|e]; [|discriminate].
  cbn [enter folder world calls].
  destruct (put_object client _ w) as [[[]|e] w1]; [|discriminate].
  destruct (put_object client' _ w') as [[[]|e] w1']; [|discriminate].
  cbn. intros [= <-] [= <-]. repeat constructor.
Qed.

Lemma batch_entry_agrees_with_single_upload_witness :
  exists content entry,
    (upload_file "eu-north-1" "study2material" Doubles.accept_all
       (Doubles.text_file "a.pdf") (enter (Some "docs/") tt)).1
      = Returns (JSONResponse 200 content)
    /\ (upload_multiple_files "eu-north-1" "study2material" Doubles.validating
          [Doubles.text_file "a.pdf"] (enter (Some "docs/") 0)).1
       = Returns (JSONResponse 200 (batch_content 1 [entry] []))
    /\ Forall (fun k => Json.get k entry = Json.get k content)
         ["filename"; "s3_key"; "url"].
Proof.
  eexists _, _. split; [reflexivity|]. split; [reflexivity|].
  exact (batch_entry_agrees_with_single_upload unit nat "eu-north-1"
           "study2material" Doubles.accept_all Doubles.validating tt 0
           (Doubles.text_file "a.pdf") (Some "docs/") _ _ eq_refl eq_refl).
Defined.

(** ** Health check and configuration *)

(** X15. The health check makes exactly one call, [head_bucket] on the
    configured bucket, and no [put_object]; it catches provider errors
    only, so any other exception of that call escapes the handler and the
    request fails with status 500. *)
Theorem health_check_calls_and_escapes :
  forall W bucket (client : S3Client W) (fr : Frame W),
    let run := health_check bucket client fr in
    calls run.2 = calls fr ++ [HeadBucketCall bucket]
    /\ world run.2 = (head_bucket client bucket (world fr)).2
    /\ (forall text w',
          head_bucket client bucket (world fr)
            = (Raises (OtherException text), w') ->
          run.1 = Raises (Uncaught (OtherException text))
          /\ http_status run.1 = 500%Z).
Proof.
  intros W bucket client fr run. subst run.
  unfold health_check, Run.try_except_ClientError, Run.try_except, Run.bind,
    s3_head_bucket, Run.call, Run.ret, Run.raise.
  destruct (head_bucket client bucket (world fr)) as [[[]|[r o i|text]] w'];
    cbn; (split; [reflexivity|]); (split; [reflexivity|]);
    intros text' w''; intros [= <- <-] || intros [=]; now split.
Qed.

Lemma health_check_calls_and_escapes_witness :
  let run := health_check "study2material" Doubles.unreachable (enter None tt) in
  run.1 = Raises (Uncaught (OtherException "Could not connect to the endpoint URL"))
  /\ http_status run.1 = 500%Z.
Proof.
  exact (proj2 (proj2 (health_check_calls_and_escapes unit "study2material"
                         Doubles.unreachable (enter None tt)))
           "Could not connect to the endpoint URL" tt eq_refl).
Defined.

(** X16. The bucket is the configured one everywhere, whatever the folder
    and the file names of a request: in every [put_object] call of both
    upload handlers, in the [head_bucket] call of the health check, and in
    the answer of the information endpoint, which calls nothing. *)
Theorem configured_bucket_everywhere :
  forall W region bucket (client : S3Client W) (w : W) file files folder,
    Forall (fun args => Bucket args = bucket)
      (put_calls (calls (upload_file region bucket client file
                           (enter folder w)).2))
    /\ Forall (fun args => Bucket args = bucket)
         (put_calls (calls (upload_multiple_files region bucket client files
                              (enter folder w)).2))
    /\ head_calls (calls (health_check bucket client (enter folder w)).2)
       = [bucket]
    /\ exists content,
         root bucket (enter folder w) = (Returns (Dict content), enter folder w)
         /\ Json.get "bucket" content = Some (JStr bucket).
Proof.
  intros W region bucket client w file files fo.
  rewrite upload_multiple_files_put_calls, upload_file_put_calls.
  split; [|split; [|split]].
  - destruct (read file); repeat constructor.
  - induction files as [|f files IH]; cbn; [constructor|].
    unfold planned_put at 1. destruct (read f); [|exact IH].
    constructor; [reflexivity | exact IH].
  - unfold health_check, Run.try_except_ClientError, Run.try_except, Run.bind,
      s3_head_bucket, Run.call, Run.ret, Run.raise.
    cbn [enter world calls folder].
    now destruct (head_bucket client bucket w) as [[[]|[r o i|text]] w'].
  - eexists. split; reflexivity.
Qed.

Lemma upload_file_returns {W} region bucket (client : S3Client W) w file fo :
  http_status (upload_file region bucket client file (enter fo w)).1
    = 200%Z ->
  exists b,
    read file = Returns b
    /\ (upload_file region bucket client file (enter fo w)).1
       = Returns (JSONResponse 200 (upload_file_content region bucket file fo b)).
Proof.
  rewrite upload_file_run. destruct (read file) as [b|e]; [|discriminate].
  cbn [enter folder world calls].
  destruct (put_object client _ w) as [[[]|e] w']; [|discriminate].
  intros _. now exists b.
Qed.

(** X17. Started from an environment that sets the credentials and neither
    [AWS_REGION] nor [S3_BUCKET_NAME], the service stores a file named [n]
    in the bucket [study2material] and answers a successful single upload
    with the url
    [https://study2material.s3.eu-north-1.amazonaws.com/<key>]. *)
Theorem default_settings_upload :
  forall (environ : gmap string string) settings W (client : S3Client W)
         (w : W) file folder n,
    Startup.load environ = Returns settings ->
    environ !! "AWS_REGION" = None ->
    environ !! "S3_BUCKET_NAME" = None ->
    filename file = Some n ->
    let run :=
      upload_file (Startup.AWS_REGION settings) (Startup.S3_BUCKET_NAME settings)
        client file (enter folder w) in
    http_status run.1 = 200%Z ->
    List.map Bucket (put_calls (calls run.2)) = ["study2material"]
    /\ exists content,
         run.1 = Returns (JSONResponse 200 content)
         /\ Json.get "bucket" content = Some (JStr "study2material")
         /\ Json.get "url" content
            = Some (JStr ("https://study2material.s3.eu-north-1.amazonaws.com/"
                            +:+ buildKey folder n)).
Proof.
  intros environ settings W client w file fo n Hload Hregion Hbucket Hn run
    Hstatus.
  assert (Startup.AWS_REGION settings = "eu-north-1"
          /\ Startup.S3_BUCKET_NAME settings = "study2material") as [Hr Hb].
  { revert Hload.
    unfold Startup.load, Startup.getenv, Startup.getenv_default.
    rewrite Hregion, Hbucket. destruct (_ || _); [discriminate|].
    now intros [= <-]. }
  subst run. rewrite Hr, Hb in Hstatus |- *.
  destruct (upload_file_returns _ _ _ _ _ _ Hstatus) as (b & Hread & ->).
  rewrite upload_file_put_calls, Hread. split; [reflexivity|].
  eexists. split; [reflexivity|].
  unfold upload_file_content. rewrite Hn, key_after_named. now cbn.
Qed.

Lemma default_settings_upload_witness :
  exists settings content,
    Startup.load {[ "AWS_ACCESS_KEY_ID" := "AKIA";
                    "AWS_SECRET_ACCESS_KEY" := "secret" ]} = Returns settings
    /\ (upload_file (Startup.AWS_REGION settings)
          (Startup.S3_BUCKET_NAME settings) Doubles.accept_all
          (Doubles.text_file "a.pdf") (enter (Some "docs") tt)).1
       = Returns (JSONResponse 200 content)
    /\ Json.get "url" content
       = Some (JStr "https://study2material.s3.eu-north-1.amazonaws.com/docs/a.pdf").
Proof.
  set (environ := {[ "AWS_ACCESS_KEY_ID" := "AKIA";
                     "AWS_SECRET_ACCESS_KEY" := "secret" ]}
                  : gmap string string).
  destruct (Startup.load environ) as [settings|e] eqn:Hload;
    [|discriminate Hload].
  assert (Hsettings : Startup.AWS_REGION settings = "eu-north-1"
                      /\ Startup.S3_BUCKET_NAME settings = "study2material")
    by (injection Hload as <-; split; reflexivity).
  destruct (default_settings_upload environ settings unit Doubles.accept_all tt
              (Doubles.text_file "a.pdf") (Some "docs") "a.pdf"
              Hload eq_refl eq_refl eq_refl)
    as (_ & content & Hrun & _ & Hurl).
  { destruct Hsettings as [-> ->]. reflexivity. }
  exists settings, content. split; [reflexivity|]. split; [exact Hrun | exact Hurl].
Defined.
